(** * The CoinGecko / multi-tool MCP servers: a shallow embedding

    The repository holds two near-duplicate servers:
    - [coingecko_server.py]: one tool, [get_coin_price];
    - [multimcps/combined_server.py]: two tools, [get_coin_price] and
      [search_twitter_mentions].

    Each server has one fetcher per tool, a [list_tools] handler returning
    the tool catalog and a [call_tool] handler dispatching on the tool name.

    The development is organised as follows:
    - [Host]: the Python values the handlers manipulate (JSON data, [dict]s
      and [list]s), with truthiness, [==], [in], subscripting and [str()];
    - [Effects]: a state-and-exception monad for the handlers; the state
      records the requests sent through the HTTP client and the records
      emitted on the logger;
    - [CoinGecko] and [MultiMCP]: the two servers, function by function;
    - [Design]: the outcome type of the design document, for comparison;
    - the properties. *)

From Stdlib Require Import String Ascii List ZArith Bool Lia.
From Stdlib Require Import DecimalString.
Import ListNotations.

Local Open Scope string_scope.
Local Open Scope Z_scope.

Set Warnings "-register-all".

(* ===================================================================== *)
(** * Host values *)
(* ===================================================================== *)

(** Python [float]s are kept abstract: the servers only test them for
    truth, compare them and print them. *)
Class HostFloat : Type := {
  float : Type;
  (** [bool(f)]: false exactly on [0.0] and [-0.0] *)
  float_truthy : float -> bool;
  (** [f == g] *)
  float_eqb : float -> float -> bool;
  (** [f == n] for an [int] [n] *)
  float_eqb_int : float -> Z -> bool;
  (** [repr(f)] *)
  float_repr : float -> string
}.

Module Host.

(** ** Exceptions and results of host operations *)

(** The exceptions of the program, all of class [Exception]: the
    [ValueError]s that [call_tool] raises, the errors of [in] and of
    subscripting, and whatever the HTTP client raises. *)
Inductive exn : Type :=
| ValueError (msg : string)
| TypeError
| KeyError
| IndexError
| ClientError (msg : string).

Inductive result (A : Type) : Type :=
| Ok (a : A)
| Raise (e : exn).
Arguments Ok {A} a.
Arguments Raise {A} e.

Section Values.
Context {HF : HostFloat}.

(** The values of the program: what [response.json()] returns, what the
    protocol passes as [arguments], and the [dict]s and [list]s the handlers
    build.  A [str] is a sequence of characters below U+0100; every [dict]
    has [str] keys and keeps its insertion order. *)
Inductive pyvalue : Type :=
| PNone
| PBool (b : bool)
| PInt (n : Z)
| PFloat (f : float)
| PStr (s : string)
| PList (l : list pyvalue)
| PDict (d : list (string * pyvalue)).

(** [d.get(k)] on the items of a [dict] *)
Fixpoint dict_get {A : Type} (k : string) (d : list (string * A)) : option A :=
  match d with
  | [] => None
  | (k', v) :: d' => if String.eqb k k' then Some v else dict_get k d'
  end.

(** ** Truthiness: [bool(v)], as used by [not v] *)
Definition py_truthy (v : pyvalue) : bool :=
  match v with
  | PNone => false
  | PBool b => b
  | PInt n => negb (n =? 0)
  | PFloat f => float_truthy f
  | PStr s => negb (String.eqb s "")
  | PList l => match l with [] => false | _ => true end
  | PDict d => match d with [] => false | _ => true end
  end.

(** ** Equality: [a == b] *)

Definition Z_of_bool (b : bool) : Z := if b then 1 else 0.

Fixpoint py_eq (a b : pyvalue) {struct a} : bool :=
  match a, b with
  | PNone, PNone => true
  | PBool x, PBool y => Z_of_bool x =? Z_of_bool y
  | PBool x, PInt y => Z_of_bool x =? y
  | PBool x, PFloat g => float_eqb_int g (Z_of_bool x)
  | PInt x, PBool y => x =? Z_of_bool y
  | PInt x, PInt y => x =? y
  | PInt x, PFloat g => float_eqb_int g x
  | PFloat f, PBool y => float_eqb_int f (Z_of_bool y)
  | PFloat f, PInt y => float_eqb_int f y
  | PFloat f, PFloat g => float_eqb f g
  | PStr s, PStr t => String.eqb s t
  | PList l1, PList l2 =>
      (fix eq_items (xs : list pyvalue) (ys : list pyvalue) : bool :=
         match xs, ys with
         | [], [] => true
         | x :: xs', y :: ys' => py_eq x y && eq_items xs' ys'
         | _, _ => false
         end) l1 l2
  | PDict d1, PDict d2 =>
      Nat.eqb (length d1) (length d2) &&
      (fix eq_entries (es : list (string * pyvalue)) : bool :=
         match es with
         | [] => true
         | (k, v) :: es' =>
             match dict_get k d2 with
             | Some w => py_eq v w
             | None => false
             end && eq_entries es'
         end) d1
  | _, _ => false
  end.

(** ** Printing: [repr(v)] and [str(v)] *)

Definition hex_digit (n : N) : ascii :=
  ascii_of_N (if (n <? 10)%N then 48 + n else 87 + n)%N.

(** [\xhh] *)
Definition hex_escape (c : ascii) : string :=
  let n := N_of_ascii c in
  String "\" (String "x" (String (hex_digit (n / 16)) (String (hex_digit (n mod 16)) ""))).

(** [str.isprintable] on one character *)
Definition char_printable (c : ascii) : bool :=
  let n := N_of_ascii c in
  ((32 <=? n) && (n <? 127) || (161 <=? n) && negb (n =? 173))%N.

Fixpoint str_has (c : ascii) (s : string) : bool :=
  match s with
  | EmptyString => false
  | String c' s' => Ascii.eqb c c' || str_has c s'
  end.

Definition squote : ascii := "'"%char.
Definition dquote : ascii := ascii_of_N 34.
Definition backslash : ascii := "\"%char.

Fixpoint repr_chars (quote : ascii) (s : string) : string :=
  match s with
  | EmptyString => EmptyString
  | String c s' =>
      (if Ascii.eqb c quote || Ascii.eqb c backslash then String backslash (String c "")
       else if Ascii.eqb c (ascii_of_N 9) then String backslash "t"
       else if Ascii.eqb c (ascii_of_N 10) then String backslash "n"
       else if Ascii.eqb c (ascii_of_N 13) then String backslash "r"
       else if char_printable c then String c ""
       else hex_escape c)
      ++ repr_chars quote s'
  end.

(** [repr(s)] for a [str]: single quotes, unless the text has a single
    quote and no double quote *)
Definition str_repr (s : string) : string :=
  let quote := if str_has squote s && negb (str_has dquote s) then dquote else squote in
  String quote (repr_chars quote s ++ String quote "").

Definition int_repr (n : Z) : string := NilZero.string_of_int (Z.to_int n).

Fixpoint join (sep : string) (parts : list string) : string :=
  match parts with
  | [] => ""
  | [p] => p
  | p :: ps => p ++ sep ++ join sep ps
  end.

Fixpoint py_repr (v : pyvalue) : string :=
  match v with
  | PNone => "None"
  | PBool b => if b then "True" else "False"
  | PInt n => int_repr n
  | PFloat f => float_repr f
  | PStr s => str_repr s
  | PList l => "[" ++ join ", " (map py_repr l) ++ "]"
  | PDict d =>
      "{" ++ join ", " (map (fun kv => match kv with
                                       | (k, x) => str_repr k ++ ": " ++ py_repr x
                                       end) d) ++ "}"
  end.

(** [str(v)], also what an f-string field [{v}] inserts *)
Definition py_str (v : pyvalue) : string :=
  match v with
  | PStr s => s
  | _ => py_repr v
  end.

(** ** Host operations that can raise *)

(** [list] and [dict] values have no hash *)
Definition hashable (v : pyvalue) : bool :=
  match v with
  | PList _ | PDict _ => false
  | _ => true
  end.

(** [sub in s] on [str]s *)
Fixpoint str_contains (sub s : string) : bool :=
  String.prefix sub s ||
  match s with
  | EmptyString => false
  | String _ s' => str_contains sub s'
  end.

(** ** Membership: [x in c] *)
Definition py_contains (x c : pyvalue) : result bool :=
  match c with
  | PDict d =>
      if hashable x then
        match x with
        | PStr k => Ok (match dict_get k d with Some _ => true | None => false end)
        | _ => Ok false
        end
      else Raise TypeError
  | PList l => Ok (existsb (fun y => py_eq y x) l)
  | PStr s =>
      match x with
      | PStr sub => Ok (str_contains sub s)
      | _ => Raise TypeError
      end
  | _ => Raise TypeError
  end.

(** ** Subscripting: [c[k]] *)

(** an [int] index ([bool] is a subclass of [int]) *)
Definition as_index (k : pyvalue) : option Z :=
  match k with
  | PInt n => Some n
  | PBool b => Some (Z_of_bool b)
  | _ => None
  end.

(** the position an index denotes in a sequence of length [len] *)
Definition seq_position (len i : Z) : option nat :=
  let j := if i <? 0 then i + len else i in
  if (0 <=? j) && (j <? len) then Some (Z.to_nat j) else None.

Definition py_getitem (c k : pyvalue) : result pyvalue :=
  match c with
  | PDict d =>
      if hashable k then
        match k with
        | PStr key => match dict_get key d with Some v => Ok v | None => Raise KeyError end
        | _ => Raise KeyError
        end
      else Raise TypeError
  | PList l =>
      match as_index k with
      | Some i =>
          match seq_position (Z.of_nat (length l)) i with
          | Some p => match nth_error l p with Some v => Ok v | None => Raise IndexError end
          | None => Raise IndexError
          end
      | None => Raise TypeError
      end
  | PStr s =>
      match as_index k with
      | Some i =>
          match seq_position (Z.of_nat (String.length s)) i with
          | Some p => match String.get p s with
                      | Some ch => Ok (PStr (String ch EmptyString))
                      | None => Raise IndexError
                      end
          | None => Raise IndexError
          end
      | None => Raise TypeError
      end
  | _ => Raise TypeError
  end.

End Values.

(** An instance to run the servers on: the floats of integral value (below
    10^16 in magnitude, where [repr] prints them as [n.0]) *)
Definition IntegralFloat : HostFloat := {|
  float := Z;
  float_truthy := fun n => negb (n =? 0);
  float_eqb := Z.eqb;
  float_eqb_int := Z.eqb;
  float_repr := fun n => NilZero.string_of_int (Z.to_int n) ++ ".0"
|}.

End Host.
Export Host.

(* ===================================================================== *)
(** * Effects *)
(* ===================================================================== *)

Module Effects.
Section Monad.
Context {HF : HostFloat}.

(** A request handed to the HTTP client: [session.get(url, headers=...,
    params=...)]; an argument left out is [None]. *)
Record request : Type := mk_request {
  req_url : string;
  req_headers : pyvalue;
  req_params : pyvalue
}.

(** What the client hands back: the status, and the outcome of
    [await response.json()], which raises on a body that is not JSON. *)
Record response : Type := mk_response {
  status : Z;
  json : result pyvalue
}.

(** The HTTP client is a collaborator of the servers: for a request it gives
    a response or raises (a transport failure). *)
Definition requester : Type := request -> result response.

(** The logger method a handler calls *)
Inductive log_call : Type := Info | Warning | Error | Exception.

(** What a handler leaves behind: the requests that went through the HTTP
    client and the calls made on the logger, both oldest first.  The text of
    a log record is not kept. *)
Record world : Type := mk_world {
  requests : list request;
  logged : list log_call
}.

Definition M (A : Type) : Type := world -> result A * world.

Definition ret {A : Type} (a : A) : M A := fun w => (Ok a, w).

Definition bind {A B : Type} (c : M A) (k : A -> M B) : M B :=
  fun w =>
    match c w with
    | (Ok a, w') => k a w'
    | (Raise e, w') => (Raise e, w')
    end.

Definition raise {A : Type} (e : exn) : M A := fun w => (Raise e, w).

(** [try: c  except Exception as e: h e] *)
Definition try_except {A : Type} (c : M A) (h : exn -> M A) : M A :=
  fun w =>
    match c w with
    | (Ok a, w') => (Ok a, w')
    | (Raise e, w') => h e w'
    end.

(** a host operation inside a handler *)
Definition lift {A : Type} (r : result A) : M A := fun w => (r, w).

Definition logger (call : log_call) : M unit :=
  fun w => (Ok tt, mk_world (requests w) (logged w ++ [call])).

(** [async with session.get(...) as response] *)
Definition session_get (upstream : requester) (rq : request) : M response :=
  fun w => (upstream rq, mk_world (requests w ++ [rq]) (logged w)).

End Monad.
End Effects.
Export Effects.

Declare Scope handler_scope.
Delimit Scope handler_scope with handler.
Notation "x <- c ;; k" := (bind c (fun x => k))
  (at level 61, c at next level, right associativity) : handler_scope.
Notation "c ;; k" := (bind c (fun _ => k))
  (at level 61, right associativity) : handler_scope.

Local Open Scope handler_scope.

(** The response of [call_tool]: one text content holding [text] *)
Definition text_content {HF : HostFloat} (text : string) : pyvalue :=
  PList [PDict [("type", PStr "text"); ("text", PStr text)]].

(** [arguments.get(key)]: the value bound to [key], [None] when there is none *)
Definition arguments_get {HF : HostFloat} (key : string) (arguments : list (string * pyvalue)) : pyvalue :=
  match dict_get key arguments with
  | Some v => v
  | None => PNone
  end.

(* ===================================================================== *)
(** * [coingecko_server.py] *)
(* ===================================================================== *)

Module CoinGecko.

Module Config.
Definition COINGECKO_API_URL : string := "https://api.coingecko.com/api/v3".
End Config.

Section Server.
Context {HF : HostFloat}.
(** the HTTP client behind [aiohttp.ClientSession] *)
Variable upstream : requester.

(** [CoinGeckoServer.get_coin_price] *)
Definition get_coin_price (coin_id : pyvalue) : M pyvalue :=
  let url := Config.COINGECKO_API_URL ++ "/simple/price?ids=" ++ py_str coin_id
             ++ "&vs_currencies=usd" in
  logger Info ;;
  try_except
    (response <- session_get upstream (mk_request url PNone PNone) ;;
     if status response =? 200 then
       data <- lift (json response) ;;
       has_coin <- lift (py_contains coin_id data) ;;
       has_usd <- (if has_coin : bool
                   then entry <- lift (py_getitem data coin_id) ;;
                        lift (py_contains (PStr "usd") entry)
                   else ret false) ;;
       if has_usd : bool then
         entry <- lift (py_getitem data coin_id) ;;
         usd <- lift (py_getitem entry (PStr "usd")) ;;
         ret (PDict [("price", usd)])
       else
         logger Warning ;;
         ret (PDict [("price", PNone)])
     else
       logger Error ;;
       ret (PDict [("price", PNone)]))
    (fun e =>
       logger Exception ;;
       ret (PDict [("price", PNone)])).

(** [list_tools] *)
Definition list_tools : M pyvalue :=
  ret (PList [
    PDict [
      ("name", PStr "get_coin_price");
      ("description", PStr "Gets the current price of a coin from CoinGecko.");
      ("inputSchema", PDict [
        ("type", PStr "object");
        ("properties", PDict [
          ("coin_id", PDict [
            ("type", PStr "string");
            ("description", PStr "The CoinGecko ID of the coin (e.g., bitcoin, ethereum).")
          ])
        ]);
        ("required", PList [PStr "coin_id"])
      ])
    ]
  ]).

(** [call_tool] *)
Definition call_tool (name : string) (arguments : list (string * pyvalue)) : M pyvalue :=
  if String.eqb name "get_coin_price" then
    let coin_id := arguments_get "coin_id" arguments in
    if negb (py_truthy coin_id) then
      raise (ValueError "coin_id is required")
    else
      price_data <- get_coin_price coin_id ;;
      ret (text_content (py_str price_data))
  else
    raise (ValueError ("Unknown tool: " ++ name)).

End Server.
End CoinGecko.

(* ===================================================================== *)
(** * [multimcps/combined_server.py] *)
(* ===================================================================== *)

Module MultiMCP.

Module Config.
Definition COINGECKO_API_URL : string := "https://api.coingecko.com/api/v3".
End Config.

Section Server.
Context {HF : HostFloat}.
(** the HTTP client behind [aiohttp.ClientSession] *)
Variable upstream : requester.
(** [Config.ELFA_API_KEY], read from the environment when the module loads *)
Variable ELFA_API_KEY : string.

(** [MultiMCPServer.get_coin_price] *)
Definition get_coin_price (coin_id : pyvalue) : M pyvalue :=
  let url := Config.COINGECKO_API_URL ++ "/simple/price?ids=" ++ py_str coin_id
             ++ "&vs_currencies=usd" in
  logger Info ;;
  try_except
    (response <- session_get upstream (mk_request url PNone PNone) ;;
     if status response =? 200 then
       data <- lift (json response) ;;
       has_coin <- lift (py_contains coin_id data) ;;
       has_usd <- (if has_coin : bool
                   then entry <- lift (py_getitem data coin_id) ;;
                        lift (py_contains (PStr "usd") entry)
                   else ret false) ;;
       if has_usd : bool then
         entry <- lift (py_getitem data coin_id) ;;
         usd <- lift (py_getitem entry (PStr "usd")) ;;
         ret (PDict [("price", usd)])
       else
         logger Warning ;;
         ret (PDict [("price", PNone)])
     else
       logger Error ;;
       ret (PDict [("price", PNone)]))
    (fun e =>
       logger Exception ;;
       ret (PDict [("price", PNone)])).

(** [MultiMCPServer.search_twitter_mentions] *)
Definition search_twitter_mentions (keywords : pyvalue) : M pyvalue :=
  let url := "https://api.elfa.ai/intelligence/twitter/search/mentions" in
  let headers := PDict [("X-API-Key", PStr ELFA_API_KEY)] in
  let params := PDict [("keywords", keywords)] in
  logger Info ;;
  try_except
    (response <- session_get upstream (mk_request url headers params) ;;
     if status response =? 200 then
       data <- lift (json response) ;;
       ret data
     else
       logger Error ;;
       ret (PList []))
    (fun e =>
       logger Exception ;;
       ret (PList [])).

(** [list_tools] *)
Definition list_tools : M pyvalue :=
  ret (PList [
    PDict [
      ("name", PStr "get_coin_price");
      ("description", PStr "Gets the current price of a coin from CoinGecko.");
      ("inputSchema", PDict [
        ("type", PStr "object");
        ("properties", PDict [
          ("coin_id", PDict [
            ("type", PStr "string");
            ("description", PStr "The CoinGecko ID of the coin (e.g., bitcoin, ethereum).")
          ])
        ]);
        ("required", PList [PStr "coin_id"])
      ])
    ];
    PDict [
      ("name", PStr "search_twitter_mentions");
      ("description", PStr "Searches for mentions of specific keywords on Twitter using ELFA AI API.");
      ("inputSchema", PDict [
        ("type", PStr "object");
        ("properties", PDict [
          ("keywords", PDict [
            ("type", PStr "array");
            ("items", PDict [("type", PStr "string")]);
            ("description", PStr "List of keywords to search for.")
          ])
        ]);
        ("required", PList [PStr "keywords"])
      ])
    ]
  ]).

(** [call_tool] *)
Definition call_tool (name : string) (arguments : list (string * pyvalue)) : M pyvalue :=
  if String.eqb name "get_coin_price" then
    let coin_id := arguments_get "coin_id" arguments in
    if negb (py_truthy coin_id) then
      raise (ValueError "coin_id is required")
    else
      price_data <- get_coin_price coin_id ;;
      ret (text_content (py_str price_data))
  else if String.eqb name "search_twitter_mentions" then
    let keywords := arguments_get "keywords" arguments in
    if negb (py_truthy keywords) then
      raise (ValueError "keywords is required")
    else
      twitter_data <- search_twitter_mentions keywords ;;
      ret (text_content (py_str twitter_data))
  else
    raise (ValueError ("Unknown tool: " ++ name)).

End Server.
End MultiMCP.

(* ===================================================================== *)
(** * The two servers side by side *)
(* ===================================================================== *)

(** What [_create_server] registers on the protocol server: the two handlers *)
Record Server {HF : HostFloat} : Type := mk_server {
  list_tools : M pyvalue;
  call_tool : string -> list (string * pyvalue) -> M pyvalue
}.
Arguments mk_server {HF} list_tools call_tool.

Section Servers.
Context {HF : HostFloat}.
Variable upstream : requester.
Variable ELFA_API_KEY : string.

Definition coingecko_server : Server :=
  mk_server CoinGecko.list_tools (CoinGecko.call_tool upstream).

Definition multimcp_server : Server :=
  mk_server MultiMCP.list_tools (MultiMCP.call_tool upstream ELFA_API_KEY).

Definition servers : list Server := [coingecko_server; multimcp_server].

End Servers.

Section Reading.
Context {HF : HostFloat}.

(** a world in which nothing happened yet *)
Definition world0 : world := mk_world [] [].

(** the request [get_coin_price] sends for [coin_id] *)
Definition price_request (coin_id : pyvalue) : request :=
  mk_request ("https://api.coingecko.com/api/v3" ++ "/simple/price?ids=" ++ py_str coin_id
              ++ "&vs_currencies=usd") PNone PNone.

(** the request [search_twitter_mentions] sends for [keywords] *)
Definition mentions_request (ELFA_API_KEY : string) (keywords : pyvalue) : request :=
  mk_request "https://api.elfa.ai/intelligence/twitter/search/mentions"
             (PDict [("X-API-Key", PStr ELFA_API_KEY)])
             (PDict [("keywords", keywords)]).

(** the world after the fetcher sent [rq] and made the logger calls [calls] *)
Definition after (w : world) (rq : request) (calls : list log_call) : world :=
  mk_world (requests w ++ [rq]) (logged w ++ calls).

(** the payload [get_coin_price] returns when it has no price *)
Definition null_price : pyvalue := PDict [("price", PNone)].

(** what [call_tool] makes of a fetcher's run *)
Definition wrapped (run : result pyvalue * world) : result pyvalue * world :=
  match run with
  | (Ok data, w') => (Ok (text_content (py_str data)), w')
  | (Raise e, w') => (Raise e, w')
  end.

(** the descriptors a server lists *)
Definition catalog (s : Server) : list pyvalue :=
  match fst (list_tools s world0) with
  | Ok (PList descriptors) => descriptors
  | _ => []
  end.

(** [descriptor["name"]] *)
Definition tool_name (descriptor : pyvalue) : option string :=
  match py_getitem descriptor (PStr "name") with
  | Ok (PStr name) => Some name
  | _ => None
  end.

(** the strings of [descriptor["inputSchema"]["required"]] *)
Definition required_fields (descriptor : pyvalue) : list string :=
  match py_getitem descriptor (PStr "inputSchema") with
  | Ok schema =>
      match py_getitem schema (PStr "required") with
      | Ok (PList fields) =>
          flat_map (fun f => match f with PStr name => [name] | _ => [] end) fields
      | _ => []
      end
  | _ => []
  end.

(** [name] is the name of a descriptor of the server's catalog *)
Definition registered (s : Server) (name : string) : Prop :=
  In (Some name) (map tool_name (catalog s)).

(** an HTTP client that gives the same reply to every request *)
Definition answers (reply : result response) : requester := fun _ => reply.

(** a keyword list as the protocol passes it *)
Definition keyword_list (keywords : list string) : pyvalue :=
  PList (map PStr keywords).

End Reading.

(* ===================================================================== *)
(** * The outcome type of the design document *)
(* ===================================================================== *)

Module Design.
Section Outcome.
Context {HF : HostFloat}.




End Outcome.
End Design.

(* ===================================================================== *)
(** * Reading a reply *)
(* ===================================================================== *)

Section Replies.
Context {HF : HostFloat}.

(** [isinstance(v, str)] *)
Definition is_str (v : pyvalue) : bool :=
  match v with
  | PStr _ => true
  | _ => false
  end.

(** The USD quote a reply holds for [coin_id], if any: the reply is an
    HTTP 200 answer, its body a JSON object, the entry of [coin_id] in it a
    JSON object, and the quote that entry's [usd] field. *)
Definition quoted_usd (coin_id : string) (reply : result response) : option pyvalue :=
  match reply with
  | Ok r =>
      if status r =? 200 then
        match json r with
        | Ok (PDict body) =>
            match dict_get coin_id body with
            | Some (PDict entry) => dict_get "usd" entry
            | _ => None
            end
        | _ => None
        end
      else None
  | Raise _ => None
  end.

(** The mentions a reply holds: the JSON body of an HTTP 200 answer, and
    the empty list for every other reply. *)
Definition mentions_of (reply : result response) : pyvalue :=
  match reply with
  | Ok r =>
      if status r =? 200 then
        match json r with
        | Ok data => data
        | Raise _ => PList []
        end
      else PList []
  | Raise _ => PList []
  end.

(** The logger call [get_coin_price] makes for a string [coin_id] on an
    HTTP 200 body [data] in which it finds no price: a [warning] when the
    tests [coin_id in data] and ["usd" in data[coin_id]] come out false,
    an [exception] when a test or a subscript raises - on [null], a boolean
    or a number, and on a string or a list in which the test succeeds. *)
Definition fallback_call (coin_id : string) (data : pyvalue) : log_call :=
  let in_entry (entry : pyvalue) : log_call :=
    match entry with
    | PDict _ => Warning
    | PList items => if existsb (fun y => py_eq y (PStr "usd")) items then Exception else Warning
    | PStr s => if str_contains "usd" s then Exception else Warning
    | _ => Exception
    end in
  match data with
  | PDict body =>
      match dict_get coin_id body with
      | None => Warning
      | Some entry => in_entry entry
      end
  | PList items =>
      if existsb (fun y => py_eq y (PStr coin_id)) items then Exception else Warning
  | PStr s => if str_contains coin_id s then Exception else Warning
  | _ => Exception
  end.

End Replies.

(* ===================================================================== *)
(** * The server classes: construction and start-up *)
(* ===================================================================== *)

Module Lifecycle.
Section Classes.
Context {HF : HostFloat}.

(** A protocol server: [Server(name)] with the two handlers registered on
    it.  [ident] tells the objects apart: it is the number of protocol
    servers constructed before this one. *)
Record protocol_server : Type := mk_protocol_server {
  ident : nat;
  server_name : string;
  handlers : Server
}.

(** An instance of [CoinGeckoServer] or of [MultiMCPServer]: its [server]
    attribute, [None] until a protocol server is created. *)
Record instance : Type := mk_instance {
  server : option protocol_server
}.

(** What the two classes differ in: the name given to [Server(...)] and the
    handlers [_create_server] registers. *)
Record server_class : Type := mk_class {
  class_name : string;
  class_handlers : Server
}.

Definition CoinGeckoServer (upstream : requester) : server_class :=
  mk_class "coingecko-mcp-server" (coingecko_server upstream).

Definition MultiMCPServer (upstream : requester) (ELFA_API_KEY : string) : server_class :=
  mk_class "multimcps-server" (multimcp_server upstream ELFA_API_KEY).

(** What a route of the web application leads to: the closure [handle_sse],
    which runs [self.server] on the streams of a new connection, or the
    transport's [handle_post_message]. *)
Inductive endpoint : Type :=
| handle_sse
| handle_post_message (messages_path : string).

Inductive routing : Type :=
| Route (path : string) (target : endpoint)
| Mount (path : string) (target : endpoint).

(** [Starlette(debug=..., routes=...)] *)
Record starlette : Type := mk_starlette {
  debug : bool;
  routes : list routing
}.

(** [uvicorn.Config(app, host=..., port=...)] *)
Record uvicorn_config : Type := mk_uvicorn_config {
  app : starlette;
  host : string;
  port : Z
}.

(** The process around the instances: how many protocol servers were
    constructed, the calls made on the logger, and the configurations
    handed to [uvicorn.Server(...).serve()], oldest first. *)
Record process : Type := mk_process {
  constructed : nat;
  announced : list log_call;
  served : list uvicorn_config
}.

Variable cls : server_class.

(** [__init__] *)
Definition __init__ : instance := mk_instance None.

(** [_create_server] *)
Definition _create_server (p : process) : protocol_server * process :=
  (mk_protocol_server (constructed p) (class_name cls) (class_handlers cls),
   mk_process (S (constructed p)) (announced p) (served p)).

(** [initialize] *)
Definition initialize (self : instance) (p : process)
  : protocol_server * instance * process :=
  let (created, p') := _create_server p in
  (created, mk_instance (Some created), p').

(** the web application [run_sse] builds *)
Definition starlette_app : starlette :=
  let messages_path := "/messages/" in
  mk_starlette true [Route "/sse" handle_sse;
                     Mount "/messages/" (handle_post_message messages_path)].

(** [run_sse], up to the return of [server.serve()] *)
Definition run_sse (self : instance) (port : Z) (p : process) : instance * process :=
  let (self, p) :=
    match server self with
    | None => let '(_, self', p') := initialize self p in (self', p')
    | Some _ => (self, p)
    end in
  let p := mk_process (constructed p) (announced p ++ [Info]) (served p) in
  let config := mk_uvicorn_config starlette_app "0.0.0.0" port in
  (self, mk_process (constructed p) (announced p) (served p ++ [config])).

(** [main], for the value of [Config.PORT] *)
Definition main (PORT : Z) (p : process) : instance * process :=
  let server := __init__ in
  run_sse server PORT p.

End Classes.
End Lifecycle.

(* ===================================================================== *)
(** * The fetchers, branch by branch *)
(* ===================================================================== *)

(** Unfolds the monad of a handler down to matches on the replies. *)
Ltac run_handler :=
  unfold bind, try_except, session_get, logger, lift, ret, raise;
  cbn [fst snd requests logged status json].

(** Closes an equation between a run and its expected world. *)
Ltac same_world :=
  unfold after, null_price; cbn [requests logged]; rewrite <- ?app_assoc; reflexivity.

Section Fetchers.
Context {HF : HostFloat}.
Variable upstream : requester.
Variable ELFA_API_KEY : string.

(** The two servers have the same price fetcher. *)
Lemma get_coin_price_same :
  MultiMCP.get_coin_price upstream = CoinGecko.get_coin_price upstream.
Proof. reflexivity. Qed.




(** 200 with the coin's USD field: the price is that field. *)
Lemma get_coin_price_found (coin_id : string) (w : world)
      (body entry : list (string * pyvalue)) (usd : pyvalue) :
  upstream (price_request (PStr coin_id)) = Ok (mk_response 200 (Ok (PDict body))) ->
  dict_get coin_id body = Some (PDict entry) ->
  dict_get "usd" entry = Some usd ->
  CoinGecko.get_coin_price upstream (PStr coin_id) w =
  (Ok (PDict [("price", usd)]), after w (price_request (PStr coin_id)) [Info]).
Proof.
  intros H Hc Hu. unfold CoinGecko.get_coin_price. run_handler.
  change (mk_request _ PNone PNone) with (price_request (PStr coin_id)).
  rewrite H. cbn [status json Z.eqb Pos.eqb py_contains py_getitem hashable].
  rewrite Hc. cbn [py_contains py_getitem hashable]. rewrite Hu. reflexivity.
Qed.

(** 200 without the coin, or with a coin that has no USD field: the price
    is null and a warning is logged. *)
Lemma get_coin_price_absent (coin_id : string) (w : world)
      (body : list (string * pyvalue)) :
  upstream (price_request (PStr coin_id)) = Ok (mk_response 200 (Ok (PDict body))) ->
  dict_get coin_id body = None \/
  (exists entry, dict_get coin_id body = Some (PDict entry) /\ dict_get "usd" entry = None) ->
  CoinGecko.get_coin_price upstream (PStr coin_id) w =
  (Ok null_price, after w (price_request (PStr coin_id)) [Info; Warning]).
Proof.
  intros H Hc. unfold CoinGecko.get_coin_price. run_handler.
  change (mk_request _ PNone PNone) with (price_request (PStr coin_id)).
  rewrite H. cbn [status json Z.eqb Pos.eqb py_contains py_getitem hashable].
  destruct Hc as [Hc | (entry & Hc & Hu)]; rewrite Hc.
  - same_world.
  - cbn [py_contains py_getitem hashable]. rewrite Hu.
    same_world.
Qed.

(** Whatever the reply, the price fetcher returns a payload, sends one
    request and raises nothing. *)
Lemma get_coin_price_returns (coin_id : pyvalue) (w : world) :
  exists payload calls,
    CoinGecko.get_coin_price upstream coin_id w =
    (Ok payload, after w (price_request coin_id) calls).
Proof.
  unfold CoinGecko.get_coin_price. run_handler.
  change (mk_request _ PNone PNone) with (price_request coin_id).
  destruct (upstream (price_request coin_id)) as [r | e].
  2: { exists null_price, [Info; Exception]. same_world. }
  destruct (status r =? 200).
  2: { exists null_price, [Info; Error]. same_world. }
  destruct (json r) as [data | e].
  2: { exists null_price, [Info; Exception]. same_world. }
  destruct (py_contains coin_id data) as [[|] | e].
  3: { exists null_price, [Info; Exception]. same_world. }
  2: { exists null_price, [Info; Warning]. same_world. }
  destruct (py_getitem data coin_id) as [entry | e].
  2: { exists null_price, [Info; Exception]. same_world. }
  destruct (py_contains (PStr "usd") entry) as [[|] | e].
  3: { exists null_price, [Info; Exception]. same_world. }
  2: { exists null_price, [Info; Warning]. same_world. }
  destruct (py_getitem entry (PStr "usd")) as [usd | e].
  2: { exists null_price, [Info; Exception]. same_world. }
  exists (PDict [("price", usd)]), [Info]. reflexivity.
Qed.

End Fetchers.

Section Mentions.
Context {HF : HostFloat}.
Variable upstream : requester.
Variable ELFA_API_KEY : string.

(** The mention search, by the reply of the HTTP client. *)
Lemma search_twitter_mentions_reply (keywords : pyvalue) (w : world) :
  MultiMCP.search_twitter_mentions upstream ELFA_API_KEY keywords w =
  let rq := mentions_request ELFA_API_KEY keywords in
  match upstream rq with
  | Raise _ => (Ok (PList []), after w rq [Info; Exception])
  | Ok r =>
      if status r =? 200 then
        match json r with
        | Ok data => (Ok data, after w rq [Info])
        | Raise _ => (Ok (PList []), after w rq [Info; Exception])
        end
      else (Ok (PList []), after w rq [Info; Error])
  end.
Proof.
  unfold MultiMCP.search_twitter_mentions. run_handler.
  change (mk_request _ _ _) with (mentions_request ELFA_API_KEY keywords).
  cbv zeta.
  destruct (upstream (mentions_request ELFA_API_KEY keywords)) as [r | e]; [| same_world].
  destruct (status r =? 200); [| same_world].
  destruct (json r); same_world.
Qed.

(** Whatever the reply, the mention search returns a value, sends one
    request and raises nothing. *)
Lemma search_twitter_mentions_returns (keywords : pyvalue) (w : world) :
  exists data calls,
    MultiMCP.search_twitter_mentions upstream ELFA_API_KEY keywords w =
    (Ok data, after w (mentions_request ELFA_API_KEY keywords) calls).
Proof.
  rewrite search_twitter_mentions_reply. cbv zeta.
  destruct (upstream _) as [r | e]; [| eauto].
  destruct (status r =? 200); [| eauto].
  destruct (json r); eauto.
Qed.

End Mentions.

(* ===================================================================== *)
(** * The dispatcher, tool by tool *)
(* ===================================================================== *)

Section Dispatch.
Context {HF : HostFloat}.
Variable upstream : requester.
Variable ELFA_API_KEY : string.

Lemma coingecko_call_get_coin_price (arguments : list (string * pyvalue)) (w : world) :
  CoinGecko.call_tool upstream "get_coin_price" arguments w =
  if py_truthy (arguments_get "coin_id" arguments)
  then wrapped (CoinGecko.get_coin_price upstream (arguments_get "coin_id" arguments) w)
  else (Raise (ValueError "coin_id is required"), w).
Proof.
  unfold CoinGecko.call_tool. cbn [String.eqb Ascii.eqb Bool.eqb].
  destruct (py_truthy _); cbn [negb]; [| reflexivity].
  unfold bind, ret, wrapped.
  destruct (CoinGecko.get_coin_price _ _ _) as [[data | e] w']; reflexivity.
Qed.

Lemma multimcp_call_get_coin_price (arguments : list (string * pyvalue)) (w : world) :
  MultiMCP.call_tool upstream ELFA_API_KEY "get_coin_price" arguments w =
  CoinGecko.call_tool upstream "get_coin_price" arguments w.
Proof. reflexivity. Qed.

Lemma multimcp_call_search_twitter_mentions (arguments : list (string * pyvalue)) (w : world) :
  MultiMCP.call_tool upstream ELFA_API_KEY "search_twitter_mentions" arguments w =
  if py_truthy (arguments_get "keywords" arguments)
  then wrapped (MultiMCP.search_twitter_mentions upstream ELFA_API_KEY
                  (arguments_get "keywords" arguments) w)
  else (Raise (ValueError "keywords is required"), w).
Proof.
  unfold MultiMCP.call_tool. cbn [String.eqb Ascii.eqb Bool.eqb].
  destruct (py_truthy _); cbn [negb]; [| reflexivity].
  unfold bind, ret, wrapped.
  destruct (MultiMCP.search_twitter_mentions _ _ _ _) as [[data | e] w']; reflexivity.
Qed.

(** A name that is none of a server's tools falls to the last branch. *)
Lemma coingecko_call_other (name : string) (arguments : list (string * pyvalue)) (w : world) :
  name <> "get_coin_price" ->
  CoinGecko.call_tool upstream name arguments w =
  (Raise (ValueError ("Unknown tool: " ++ name)), w).
Proof.
  intros Hn. unfold CoinGecko.call_tool.
  apply String.eqb_neq in Hn. now rewrite Hn.
Qed.

Lemma multimcp_call_other (name : string) (arguments : list (string * pyvalue)) (w : world) :
  name <> "get_coin_price" ->
  name <> "search_twitter_mentions" ->
  MultiMCP.call_tool upstream ELFA_API_KEY name arguments w =
  (Raise (ValueError ("Unknown tool: " ++ name)), w).
Proof.
  intros Hn Hm. unfold MultiMCP.call_tool.
  apply String.eqb_neq in Hn, Hm. now rewrite Hn, Hm.
Qed.

(** The catalogs, read back. *)
Lemma coingecko_catalog_reads :
  map (fun d => (tool_name d, required_fields d)) (catalog (coingecko_server upstream)) =
  [(Some "get_coin_price", ["coin_id"])].
Proof. reflexivity. Qed.

Lemma multimcp_catalog_reads :
  map (fun d => (tool_name d, required_fields d))
      (catalog (multimcp_server upstream ELFA_API_KEY)) =
  [(Some "get_coin_price", ["coin_id"]); (Some "search_twitter_mentions", ["keywords"])].
Proof. reflexivity. Qed.

(** A required field of a listed tool is the argument the dispatcher tests
    before it calls the fetcher. *)
Lemma required_field_guard (s : Server) (descriptor : pyvalue) (name field : string) :
  In s (servers upstream ELFA_API_KEY) ->
  In descriptor (catalog s) ->
  tool_name descriptor = Some name ->
  In field (required_fields descriptor) ->
  forall arguments w,
    py_truthy (arguments_get field arguments) = false ->
    call_tool s name arguments w = (Raise (ValueError (field ++ " is required")), w).
Proof.
  intros Hs Hd Hn Hf arguments w Hv.
  destruct Hs as [<- | [<- | []]]; cbn in Hd.
  - destruct Hd as [<- | []]. cbn in Hn, Hf.
    injection Hn as <-. destruct Hf as [<- | []].
    cbn [call_tool coingecko_server].
    rewrite coingecko_call_get_coin_price, Hv. reflexivity.
  - destruct Hd as [<- | [<- | []]]; cbn in Hn, Hf;
      injection Hn as <-; destruct Hf as [<- | []];
      cbn [call_tool multimcp_server].
    + rewrite multimcp_call_get_coin_price, coingecko_call_get_coin_price, Hv. reflexivity.
    + rewrite multimcp_call_search_twitter_mentions, Hv. reflexivity.
Qed.

End Dispatch.

(* ===================================================================== *)
(** * Properties *)
(* ===================================================================== *)

Section Properties.
Context {HF : HostFloat}.


(** C2, as the code has it: when the price endpoint answers HTTP 200 with a
    body holding the USD field of [coin_id], [get_coin_price] returns the
    payload whose [price] is that field; [call_tool] on
    [{"coin_id": coin_id}] returns one text content holding the string form
    of that payload when [coin_id] is not the empty string, and raises
    [ValueError] when it is. *)
Theorem price_found_is_returned :
  forall (upstream : requester) (ELFA_API_KEY : string) (coin_id : string)
         (body entry : list (string * pyvalue)) (usd : pyvalue) (w : world),
    upstream (price_request (PStr coin_id)) = Ok (mk_response 200 (Ok (PDict body))) ->
    dict_get coin_id body = Some (PDict entry) ->
    dict_get "usd" entry = Some usd ->
    fst (CoinGecko.get_coin_price upstream (PStr coin_id) w) = Ok (PDict [("price", usd)]) /\
    fst (MultiMCP.get_coin_price upstream (PStr coin_id) w) = Ok (PDict [("price", usd)]) /\
    fst (CoinGecko.call_tool upstream "get_coin_price" [("coin_id", PStr coin_id)] w) =
      (if String.eqb coin_id "" then Raise (ValueError "coin_id is required")
       else Ok (text_content (py_str (PDict [("price", usd)])))) /\
    fst (MultiMCP.call_tool upstream ELFA_API_KEY "get_coin_price"
           [("coin_id", PStr coin_id)] w) =
      (if String.eqb coin_id "" then Raise (ValueError "coin_id is required")
       else Ok (text_content (py_str (PDict [("price", usd)])))).
Proof.
  intros upstream key coin_id body entry usd w H Hc Hu.
  pose proof (get_coin_price_found upstream coin_id w body entry usd H Hc Hu) as Hrun.
  change (MultiMCP.get_coin_price upstream) with (CoinGecko.get_coin_price upstream).
  change (MultiMCP.call_tool upstream key "get_coin_price" [("coin_id", PStr coin_id)] w)
    with (CoinGecko.call_tool upstream "get_coin_price" [("coin_id", PStr coin_id)] w).
  rewrite coingecko_call_get_coin_price.
  change (arguments_get "coin_id" [("coin_id", PStr coin_id)]) with (PStr coin_id).
  rewrite Hrun. cbn [py_truthy fst].
  destruct (String.eqb coin_id ""); repeat split; reflexivity.
Qed.

(** C3, as the code has it: when the price endpoint answers HTTP 200 with
    a JSON body that holds no USD quote for [coin_id], [get_coin_price]
    returns the payload [{"price": None}] and raises nothing.  It returns
    it as missing data, after a [warning] only, when [coin_id] is absent
    from the body or its entry has no [usd] in it; when the body or the
    entry is [null], a boolean or a number, or a string or list in which
    the membership test succeeds, the test or the subscript raises, and the
    same payload comes from the [except] branch after an [exception] call
    on the logger.  The text the dispatcher makes of the payload is
    [{'price': None}], for every [coin_id] but the empty string, on which
    [call_tool] raises [ValueError]. *)
Theorem price_absent_is_null :
  forall (upstream : requester) (ELFA_API_KEY : string) (coin_id : string)
         (data : pyvalue) (w : world),
    upstream (price_request (PStr coin_id)) = Ok (mk_response 200 (Ok data)) ->
    quoted_usd coin_id (upstream (price_request (PStr coin_id))) = None ->
    CoinGecko.get_coin_price upstream (PStr coin_id) w =
      (Ok (PDict [("price", PNone)]),
       after w (price_request (PStr coin_id)) [Info; fallback_call coin_id data]) /\
    MultiMCP.get_coin_price upstream (PStr coin_id) w =
      (Ok (PDict [("price", PNone)]),
       after w (price_request (PStr coin_id)) [Info; fallback_call coin_id data]) /\
    wrapped (CoinGecko.get_coin_price upstream (PStr coin_id) w) =
      (Ok (text_content "{'price': None}"),
       after w (price_request (PStr coin_id)) [Info; fallback_call coin_id data]) /\
    fst (CoinGecko.call_tool upstream "get_coin_price" [("coin_id", PStr coin_id)] w) =
      (if String.eqb coin_id "" then Raise (ValueError "coin_id is required")
       else Ok (text_content "{'price': None}")) /\
    fst (MultiMCP.call_tool upstream ELFA_API_KEY "get_coin_price"
           [("coin_id", PStr coin_id)] w) =
      (if String.eqb coin_id "" then Raise (ValueError "coin_id is required")
       else Ok (text_content "{'price': None}")).
Proof.
  intros upstream key coin_id data w H Hq.
  unfold quoted_usd in Hq. rewrite H in Hq. cbn [status json Z.eqb Pos.eqb] in Hq.
  assert (Hrun : CoinGecko.get_coin_price upstream (PStr coin_id) w =
                 (Ok (PDict [("price", PNone)]),
                  after w (price_request (PStr coin_id)) [Info; fallback_call coin_id data])).
  { unfold CoinGecko.get_coin_price. run_handler.
    change (mk_request _ PNone PNone) with (price_request (PStr coin_id)).
    rewrite H. cbn [status json Z.eqb Pos.eqb]. unfold fallback_call.
    destruct data as [| b | n | f | s | l | body];
      cbn [py_contains py_getitem hashable as_index]; try same_world.
    - destruct (str_contains coin_id s); same_world.
    - destruct (existsb _ l); same_world.
    - destruct (dict_get coin_id body) as [entry |]; [| same_world].
      destruct entry as [| b | n | f | s | l | fields];
        cbn [py_contains py_getitem hashable as_index]; try same_world.
      + destruct (str_contains "usd" s); same_world.
      + destruct (existsb _ l); same_world.
      + rewrite Hq. same_world. }
  change (MultiMCP.get_coin_price upstream) with (CoinGecko.get_coin_price upstream).
  change (MultiMCP.call_tool upstream key "get_coin_price" [("coin_id", PStr coin_id)] w)
    with (CoinGecko.call_tool upstream "get_coin_price" [("coin_id", PStr coin_id)] w).
  rewrite coingecko_call_get_coin_price.
  change (arguments_get "coin_id" [("coin_id", PStr coin_id)]) with (PStr coin_id).
  rewrite Hrun. cbn [py_truthy fst].
  destruct (String.eqb coin_id ""); repeat split; reflexivity.
Qed.

(** C4: a name that no descriptor of a server's catalog bears makes
    [call_tool] raise [ValueError("Unknown tool: <name>")], whatever the
    arguments: no content is returned and the world is left as it was. *)
Theorem unknown_tool_is_rejected :
  forall (upstream : requester) (ELFA_API_KEY : string) (s : Server) (name : string)
         (arguments : list (string * pyvalue)) (w : world),
    In s (servers upstream ELFA_API_KEY) ->
    ~ registered s name ->
    call_tool s name arguments w = (Raise (ValueError ("Unknown tool: " ++ name)), w).
Proof.
  intros upstream key s name arguments w Hs Hr.
  destruct Hs as [<- | [<- | []]]; unfold registered in Hr; cbn in Hr.
  - apply coingecko_call_other. intros ->. apply Hr. auto.
  - apply multimcp_call_other; intros ->; apply Hr; auto.
Qed.

(** C5: [call_tool("get_coin_price", {})] raises
    [ValueError("coin_id is required")] and sends no request; and for every
    tool of either catalog and every field its schema requires, arguments
    that do not bind the field make [call_tool] raise
    [ValueError("<field> is required")] with no request sent. *)
Theorem missing_argument_fails_before_any_request :
  forall (upstream : requester) (ELFA_API_KEY : string) (s : Server)
         (descriptor : pyvalue) (name field : string)
         (arguments : list (string * pyvalue)) (w : world),
    In s (servers upstream ELFA_API_KEY) ->
    In descriptor (catalog s) ->
    tool_name descriptor = Some name ->
    In field (required_fields descriptor) ->
    dict_get field arguments = None ->
    call_tool s "get_coin_price" [] w = (Raise (ValueError "coin_id is required"), w) /\
    call_tool s name arguments w = (Raise (ValueError (field ++ " is required")), w) /\
    requests (snd (call_tool s name arguments w)) = requests w.
Proof.
  intros upstream key s descriptor name field arguments w Hs Hd Hn Hf Ha.
  assert (Hcall : call_tool s name arguments w =
                  (Raise (ValueError (field ++ " is required")), w)).
  { apply (required_field_guard upstream key s descriptor); auto.
    unfold arguments_get. now rewrite Ha. }
  split; [| split; [exact Hcall | now rewrite Hcall]].
  destruct Hs as [<- | [<- | []]]; reflexivity.
Qed.

(** C6: [list_tools] returns the same catalog, in the same order, on every
    call and leaves the world as it was (no request, no logger call); the
    catalogs read [get_coin_price] requiring [coin_id] and, on the multi-tool
    server, [search_twitter_mentions] requiring [keywords]; and the required
    field is the fetcher's input: the dispatcher sends the fetcher's request
    for the value bound to that field, and no request when that value fails
    the truth test. *)
Theorem list_tools_is_stable :
  forall (upstream : requester) (ELFA_API_KEY : string) (w : world)
         (arguments : list (string * pyvalue)),
    let cg := coingecko_server upstream in
    let mm := multimcp_server upstream ELFA_API_KEY in
    list_tools cg w = (Ok (PList (catalog cg)), w) /\
    list_tools mm w = (Ok (PList (catalog mm)), w) /\
    map (fun d => (tool_name d, required_fields d)) (catalog cg) =
      [(Some "get_coin_price", ["coin_id"])] /\
    map (fun d => (tool_name d, required_fields d)) (catalog mm) =
      [(Some "get_coin_price", ["coin_id"]); (Some "search_twitter_mentions", ["keywords"])] /\
    requests (snd (call_tool cg "get_coin_price" arguments w)) =
      (if py_truthy (arguments_get "coin_id" arguments)
       then requests w ++ [price_request (arguments_get "coin_id" arguments)]
       else requests w)%list /\
    requests (snd (call_tool mm "get_coin_price" arguments w)) =
      (if py_truthy (arguments_get "coin_id" arguments)
       then requests w ++ [price_request (arguments_get "coin_id" arguments)]
       else requests w)%list /\
    requests (snd (call_tool mm "search_twitter_mentions" arguments w)) =
      (if py_truthy (arguments_get "keywords" arguments)
       then requests w ++ [mentions_request ELFA_API_KEY (arguments_get "keywords" arguments)]
       else requests w)%list.
Proof.
  intros upstream key w arguments cg mm.
  assert (Hprice : requests (snd (CoinGecko.call_tool upstream "get_coin_price" arguments w)) =
                   (if py_truthy (arguments_get "coin_id" arguments)
                    then requests w ++ [price_request (arguments_get "coin_id" arguments)]
                    else requests w)%list).
  { rewrite coingecko_call_get_coin_price.
    destruct (py_truthy _); [| reflexivity].
    destruct (get_coin_price_returns upstream (arguments_get "coin_id" arguments) w)
      as (payload & calls & ->).
    reflexivity. }
  do 4 (split; [reflexivity |]).
  do 2 (split; [exact Hprice |]).
  subst mm. cbn [call_tool multimcp_server].
  rewrite multimcp_call_search_twitter_mentions.
  destruct (py_truthy (arguments_get "keywords" arguments)); [| reflexivity].
  destruct (search_twitter_mentions_returns upstream key (arguments_get "keywords" arguments) w)
    as (data & calls & ->).
  reflexivity.
Qed.

(** C7, as the code has it: when the mention endpoint answers HTTP 200 with
    a JSON array, [search_twitter_mentions] returns that array as it came;
    [call_tool] on [{"keywords": keywords}] returns one text content holding
    the string form of the array when [keywords] is not empty, and raises
    [ValueError] when it is. *)
Theorem mentions_found_are_returned :
  forall (upstream : requester) (ELFA_API_KEY : string) (keywords : list string)
         (records : list pyvalue) (w : world),
    upstream (mentions_request ELFA_API_KEY (keyword_list keywords)) =
      Ok (mk_response 200 (Ok (PList records))) ->
    MultiMCP.search_twitter_mentions upstream ELFA_API_KEY (keyword_list keywords) w =
      (Ok (PList records),
       after w (mentions_request ELFA_API_KEY (keyword_list keywords)) [Info]) /\
    fst (MultiMCP.call_tool upstream ELFA_API_KEY "search_twitter_mentions"
           [("keywords", keyword_list keywords)] w) =
      match keywords with
      | [] => Raise (ValueError "keywords is required")
      | _ :: _ => Ok (text_content (py_str (PList records)))
      end.
Proof.
  intros upstream key keywords records w H.
  assert (Hrun : MultiMCP.search_twitter_mentions upstream key (keyword_list keywords) w =
                 (Ok (PList records),
                  after w (mentions_request key (keyword_list keywords)) [Info])).
  { rewrite search_twitter_mentions_reply. cbv zeta. rewrite H. reflexivity. }
  split; [exact Hrun |].
  rewrite multimcp_call_search_twitter_mentions.
  change (arguments_get "keywords" [("keywords", keyword_list keywords)])
    with (keyword_list keywords).
  rewrite Hrun. destruct keywords; reflexivity.
Qed.

(** C8: every call of [call_tool], on either server, for any name, any
    arguments and any behaviour of the HTTP client, ends in one of two ways:
    it returns a list of exactly one text content, or it raises one
    [ValueError]. *)
Theorem call_tool_answers_once :
  forall (upstream : requester) (ELFA_API_KEY : string) (name : string)
         (arguments : list (string * pyvalue)) (w : world),
    ((exists text,
        fst (CoinGecko.call_tool upstream name arguments w) =
        Ok (PList [PDict [("type", PStr "text"); ("text", PStr text)]])) \/
     (exists msg,
        fst (CoinGecko.call_tool upstream name arguments w) = Raise (ValueError msg))) /\
    ((exists text,
        fst (MultiMCP.call_tool upstream ELFA_API_KEY name arguments w) =
        Ok (PList [PDict [("type", PStr "text"); ("text", PStr text)]])) \/
     (exists msg,
        fst (MultiMCP.call_tool upstream ELFA_API_KEY name arguments w) =
        Raise (ValueError msg))).
Proof.
  intros upstream key name arguments w.
  assert (Hprice :
    (exists text,
        fst (CoinGecko.call_tool upstream "get_coin_price" arguments w) =
        Ok (PList [PDict [("type", PStr "text"); ("text", PStr text)]])) \/
    (exists msg,
        fst (CoinGecko.call_tool upstream "get_coin_price" arguments w) =
        Raise (ValueError msg))).
  { rewrite coingecko_call_get_coin_price.
    destruct (py_truthy _); [| right; eexists; reflexivity].
    destruct (get_coin_price_returns upstream (arguments_get "coin_id" arguments) w)
      as (payload & calls & ->).
    left. eexists. reflexivity. }
  destruct (String.eqb_spec name "get_coin_price") as [-> | Hn].
  { split; exact Hprice. }
  split.
  { right. rewrite coingecko_call_other by assumption. eexists. reflexivity. }
  destruct (String.eqb_spec name "search_twitter_mentions") as [-> | Hm].
  - rewrite multimcp_call_search_twitter_mentions.
    destruct (py_truthy _); [| right; eexists; reflexivity].
    destruct (search_twitter_mentions_returns upstream key
                (arguments_get "keywords" arguments) w) as (data & calls & ->).
    left. eexists. reflexivity.
  - right. rewrite multimcp_call_other by assumption. eexists. reflexivity.
Qed.

(** C9: for every tool of either catalog and every field its schema
    requires, arguments that bind the field to a value failing the truth
    test make [call_tool] raise [ValueError("<field> is required")], the
    very outcome of a call without arguments, with the world left as it was:
    no fetcher runs.  So it is for [coin_id] bound to the empty string and
    for [keywords] bound to the empty list. *)
Theorem falsy_argument_counts_as_missing :
  forall (upstream : requester) (ELFA_API_KEY : string) (s : Server)
         (descriptor : pyvalue) (name field : string)
         (arguments : list (string * pyvalue)) (v : pyvalue) (w : world),
    In s (servers upstream ELFA_API_KEY) ->
    In descriptor (catalog s) ->
    tool_name descriptor = Some name ->
    In field (required_fields descriptor) ->
    dict_get field arguments = Some v ->
    py_truthy v = false ->
    call_tool s name arguments w = (Raise (ValueError (field ++ " is required")), w) /\
    call_tool s name arguments w = call_tool s name [] w /\
    call_tool s "get_coin_price" [("coin_id", PStr "")] w =
      (Raise (ValueError "coin_id is required"), w) /\
    call_tool (multimcp_server upstream ELFA_API_KEY) "search_twitter_mentions"
      [("keywords", PList [])] w =
      (Raise (ValueError "keywords is required"), w).
Proof.
  intros upstream key s descriptor name field arguments v w Hs Hd Hn Hf Ha Hv.
  pose proof (required_field_guard upstream key s descriptor name field Hs Hd Hn Hf) as G.
  assert (Hcall : call_tool s name arguments w =
                  (Raise (ValueError (field ++ " is required")), w)).
  { apply G. unfold arguments_get. now rewrite Ha. }
  split; [exact Hcall |].
  split; [rewrite Hcall; symmetry; apply G; reflexivity |].
  split; [| reflexivity].
  destruct Hs as [<- | [<- | []]]; reflexivity.
Qed.

(** C10: when the mention endpoint answers with a status other than 200,
    and when the HTTP client raises, [search_twitter_mentions] returns the
    empty list, which is also what it returns for an HTTP 200 answer whose
    body is the empty array: the returned values are equal. *)
Theorem mentions_failure_looks_like_no_mentions :
  forall (upstream upstream_ok : requester) (ELFA_API_KEY : string)
         (keywords : pyvalue) (w : world),
    (exists e, upstream (mentions_request ELFA_API_KEY keywords) = Raise e) \/
    (exists r, upstream (mentions_request ELFA_API_KEY keywords) = Ok r /\ status r <> 200) ->
    upstream_ok (mentions_request ELFA_API_KEY keywords) =
      Ok (mk_response 200 (Ok (PList []))) ->
    fst (MultiMCP.search_twitter_mentions upstream ELFA_API_KEY keywords w) = Ok (PList []) /\
    fst (MultiMCP.search_twitter_mentions upstream_ok ELFA_API_KEY keywords w) = Ok (PList []) /\
    fst (MultiMCP.search_twitter_mentions upstream ELFA_API_KEY keywords w) =
    fst (MultiMCP.search_twitter_mentions upstream_ok ELFA_API_KEY keywords w).
Proof.
  intros upstream upstream_ok key keywords w H Hok.
  assert (Hbad : fst (MultiMCP.search_twitter_mentions upstream key keywords w) = Ok (PList [])).
  { rewrite search_twitter_mentions_reply. cbv zeta.
    destruct H as [[e ->] | (r & -> & Hs)]; [reflexivity |].
    apply Z.eqb_neq in Hs. now rewrite Hs. }
  assert (Hgood : fst (MultiMCP.search_twitter_mentions upstream_ok key keywords w) =
                  Ok (PList [])).
  { rewrite search_twitter_mentions_reply. cbv zeta. now rewrite Hok. }
  repeat split; congruence.
Qed.

End Properties.

(* ===================================================================== *)
(** * The properties on concrete runs *)
(* ===================================================================== *)

Section Runs.
#[local] Existing Instance IntegralFloat.



(** C2 for [bitcoin] priced at 67000.0. *)
Lemma price_found_is_returned_witness :
  let up := answers (Ok (mk_response 200
              (Ok (PDict [("bitcoin", PDict [("usd", PFloat 67000)])])))) in
  fst (CoinGecko.get_coin_price up (PStr "bitcoin") world0) =
    Ok (PDict [("price", PFloat 67000)]) /\
  fst (CoinGecko.call_tool up "get_coin_price" [("coin_id", PStr "bitcoin")] world0) =
    Ok (text_content "{'price': 67000.0}").
Proof.
  pose proof (price_found_is_returned
                (answers (Ok (mk_response 200
                   (Ok (PDict [("bitcoin", PDict [("usd", PFloat 67000)])])))))
                "key" "bitcoin" [("bitcoin", PDict [("usd", PFloat 67000)])]
                [("usd", PFloat 67000)] (PFloat 67000) world0
                eq_refl eq_refl eq_refl) as (H1 & _ & H2 & _).
  split; [exact H1 | exact H2].
Defined.

(** C2 as stated fails at the empty identifier: the endpoint answers with
    its USD field, the fetcher would return it, and [call_tool] raises. *)
Lemma empty_coin_id_is_rejected_with_price_at_hand :
  let body := [(EmptyString, PDict [("usd", PInt 1)])] in
  let up := answers (Ok (mk_response 200 (Ok (PDict body)))) in
  dict_get EmptyString body = Some (PDict [("usd", PInt 1)]) /\
  fst (CoinGecko.get_coin_price up (PStr EmptyString) world0) = Ok (PDict [("price", PInt 1)]) /\
  fst (CoinGecko.call_tool up "get_coin_price" [("coin_id", PStr EmptyString)] world0) =
    Raise (ValueError "coin_id is required") /\
  fst (MultiMCP.call_tool up "key" "get_coin_price" [("coin_id", PStr EmptyString)] world0) =
    Raise (ValueError "coin_id is required").
Proof. cbv zeta. repeat split; reflexivity. Qed.

(** C3 for [dogecoin], absent from a body that prices [bitcoin]. *)
Lemma price_absent_is_null_witness :
  let body := [("bitcoin", PDict [("usd", PInt 5)])] in
  let up := answers (Ok (mk_response 200 (Ok (PDict body)))) in
  dict_get "dogecoin" body = None /\
  CoinGecko.get_coin_price up (PStr "dogecoin") world0 =
    (Ok (PDict [("price", PNone)]),
     after world0 (price_request (PStr "dogecoin")) [Info; Warning]) /\
  fst (CoinGecko.call_tool up "get_coin_price" [("coin_id", PStr "dogecoin")] world0) =
    Ok (text_content "{'price': None}").
Proof.
  pose proof (price_absent_is_null
                (answers (Ok (mk_response 200
                   (Ok (PDict [("bitcoin", PDict [("usd", PInt 5)])])))))
                "key" "dogecoin" (PDict [("bitcoin", PDict [("usd", PInt 5)])]) world0
                eq_refl eq_refl) as (H1 & _ & _ & H2 & _).
  split; [reflexivity | split; [exact H1 | exact H2]].
Defined.

(** C3 as stated fails twice.  An entry present without a [usd] field can
    be [null]: the test ["usd" in data[coin_id]] raises, and the payload
    comes from the [except] branch, after an [exception] call on the
    logger, where a missing price gets a [warning].  And for the empty
    identifier, absent from the body, nothing reaches the envelope:
    [call_tool] raises. *)
Lemma price_without_usd_can_be_handled_as_an_error :
  let body := [("bitcoin", PNone)] in
  let up := answers (Ok (mk_response 200 (Ok (PDict body)))) in
  let upempty := answers (Ok (mk_response 200 (Ok (PDict [])))) in
  dict_get "bitcoin" body = Some PNone /\
  py_contains (PStr "usd") PNone = Raise TypeError /\
  CoinGecko.get_coin_price up (PStr "bitcoin") world0 =
    (Ok (PDict [("price", PNone)]),
     after world0 (price_request (PStr "bitcoin")) [Info; Exception]) /\
  MultiMCP.get_coin_price up (PStr "bitcoin") world0 =
    (Ok (PDict [("price", PNone)]),
     after world0 (price_request (PStr "bitcoin")) [Info; Exception]) /\
  CoinGecko.get_coin_price upempty (PStr "bitcoin") world0 =
    (Ok (PDict [("price", PNone)]),
     after world0 (price_request (PStr "bitcoin")) [Info; Warning]) /\
  fst (CoinGecko.call_tool upempty "get_coin_price" [("coin_id", PStr EmptyString)] world0) =
    Raise (ValueError "coin_id is required") /\
  fst (MultiMCP.call_tool upempty "key" "get_coin_price" [("coin_id", PStr EmptyString)]
         world0) =
    Raise (ValueError "coin_id is required").
Proof. cbv zeta. repeat split; reflexivity. Qed.

(** C4 for [get_weather] on the multi-tool server. *)
Lemma unknown_tool_is_rejected_witness :
  let s := multimcp_server (answers (Raise (ClientError "unreachable"))) "key" in
  ~ registered s "get_weather" /\
  call_tool s "get_weather" [("city", PStr "Paris")] world0 =
    (Raise (ValueError "Unknown tool: get_weather"), world0).
Proof.
  assert (Hn : ~ registered (multimcp_server (answers (Raise (ClientError "unreachable"))) "key")
                 "get_weather").
  { intros [H | [H | []]]; discriminate H. }
  split; [exact Hn |].
  apply (unknown_tool_is_rejected (answers (Raise (ClientError "unreachable"))) "key").
  - right. left. reflexivity.
  - exact Hn.
Defined.

(** C5 for [search_twitter_mentions] called without [keywords]. *)
Lemma missing_argument_fails_before_any_request_witness :
  let s := multimcp_server (answers (Ok (mk_response 200 (Ok (PList []))))) "key" in
  call_tool s "get_coin_price" [] world0 =
    (Raise (ValueError "coin_id is required"), world0) /\
  call_tool s "search_twitter_mentions" [("coin_id", PStr "bitcoin")] world0 =
    (Raise (ValueError "keywords is required"), world0) /\
  requests (snd (call_tool s "search_twitter_mentions" [("coin_id", PStr "bitcoin")] world0)) = [].
Proof.
  apply (missing_argument_fails_before_any_request
           (answers (Ok (mk_response 200 (Ok (PList []))))) "key"
           (multimcp_server (answers (Ok (mk_response 200 (Ok (PList []))))) "key")
           (nth 1 (catalog (multimcp_server (answers (Ok (mk_response 200 (Ok (PList []))))) "key"))
                PNone)
           "search_twitter_mentions" "keywords" [("coin_id", PStr "bitcoin")] world0).
  - right. left. reflexivity.
  - right. left. reflexivity.
  - reflexivity.
  - left. reflexivity.
  - reflexivity.
Defined.

(** C7 for the keywords [btc], [eth] and the one-record answer. *)
Lemma mentions_found_are_returned_witness :
  let up := answers (Ok (mk_response 200 (Ok (PList [PDict [("id", PInt 1)]])))) in
  fst (MultiMCP.search_twitter_mentions up "key" (keyword_list ["btc"; "eth"]) world0) =
    Ok (PList [PDict [("id", PInt 1)]]) /\
  fst (MultiMCP.call_tool up "key" "search_twitter_mentions"
         [("keywords", keyword_list ["btc"; "eth"])] world0) =
    Ok (text_content "[{'id': 1}]").
Proof.
  pose proof (mentions_found_are_returned
                (answers (Ok (mk_response 200 (Ok (PList [PDict [("id", PInt 1)]])))))
                "key" ["btc"; "eth"] [PDict [("id", PInt 1)]] world0 eq_refl) as [H1 H2].
  split; [rewrite H1; reflexivity | exact H2].
Defined.

(** C7 as stated fails at the empty keyword list: the endpoint answers
    with its array, the fetcher would return it, and [call_tool] raises. *)
Lemma empty_keywords_are_rejected_with_mentions_at_hand :
  let up := answers (Ok (mk_response 200 (Ok (PList [PDict [("id", PInt 1)]])))) in
  fst (MultiMCP.search_twitter_mentions up "key" (keyword_list []) world0) =
    Ok (PList [PDict [("id", PInt 1)]]) /\
  fst (MultiMCP.call_tool up "key" "search_twitter_mentions"
         [("keywords", keyword_list [])] world0) =
    Raise (ValueError "keywords is required").
Proof. cbv zeta. split; reflexivity. Qed.

(** C9 for [keywords] bound to the empty list. *)
Lemma falsy_argument_counts_as_missing_witness :
  let s := multimcp_server (answers (Ok (mk_response 200 (Ok (PList []))))) "key" in
  call_tool s "search_twitter_mentions" [("keywords", PList [])] world0 =
    (Raise (ValueError "keywords is required"), world0) /\
  call_tool s "search_twitter_mentions" [("keywords", PList [])] world0 =
    call_tool s "search_twitter_mentions" [] world0.
Proof.
  pose proof (falsy_argument_counts_as_missing
           (answers (Ok (mk_response 200 (Ok (PList []))))) "key"
           (multimcp_server (answers (Ok (mk_response 200 (Ok (PList []))))) "key")
           (nth 1 (catalog (multimcp_server (answers (Ok (mk_response 200 (Ok (PList []))))) "key"))
                PNone)
           "search_twitter_mentions" "keywords" [("keywords", PList [])] (PList []) world0
           (or_intror (or_introl eq_refl)) (or_intror (or_introl eq_refl))
           eq_refl (or_introl eq_refl) eq_refl eq_refl) as (H1 & H2 & _).
  split; [exact H1 | exact H2].
Defined.

(** C10 for HTTP 503 against an empty HTTP 200 answer. *)
Lemma mentions_failure_looks_like_no_mentions_witness :
  let up := answers (Ok (mk_response 503 (Ok PNone))) in
  let up_ok := answers (Ok (mk_response 200 (Ok (PList [])))) in
  fst (MultiMCP.search_twitter_mentions up "key" (keyword_list ["btc"]) world0) =
  fst (MultiMCP.search_twitter_mentions up_ok "key" (keyword_list ["btc"]) world0).
Proof.
  apply (mentions_failure_looks_like_no_mentions
           (answers (Ok (mk_response 503 (Ok PNone))))
           (answers (Ok (mk_response 200 (Ok (PList []))))) "key"
           (keyword_list ["btc"]) world0).
  - right. exists (mk_response 503 (Ok PNone)). split; [reflexivity | discriminate].
  - reflexivity.
Defined.

End Runs.

(* ===================================================================== *)
(** * Further properties of the fetchers and of the dispatcher *)
(* ===================================================================== *)

Section Frames.
Context {HF : HostFloat}.
Variable upstream : requester.
Variable ELFA_API_KEY : string.

(** A world is its two fields. *)
Lemma world_unchanged (w : world) :
  mk_world (requests w ++ []) (logged w ++ []) = w.
Proof. destruct w. cbn. now rewrite !app_nil_r. Qed.

(** The price fetcher in every world at once: payload and logger calls do
    not depend on the world, and the payload is the upstream's field or the
    null price. *)
Lemma get_coin_price_run (coin_id : pyvalue) :
  exists payload calls,
    (forall w, CoinGecko.get_coin_price upstream coin_id w =
               (Ok payload, after w (price_request coin_id) (Info :: calls))) /\
    ((calls = [] /\
      exists r data entry usd,
        upstream (price_request coin_id) = Ok r /\ status r = 200 /\
        json r = Ok data /\ py_getitem data coin_id = Ok entry /\
        py_getitem entry (PStr "usd") = Ok usd /\
        payload = PDict [("price", usd)]) \/
     (payload = null_price /\
      exists call, calls = [call] /\ In call [Warning; Error; Exception])).
Proof.
  pose (rq := price_request coin_id).
  assert (step : forall w,
    CoinGecko.get_coin_price upstream coin_id w =
    match upstream rq with
    | Raise _ => (Ok null_price, after w rq [Info; Exception])
    | Ok r =>
        if status r =? 200 then
          match json r with
          | Raise _ => (Ok null_price, after w rq [Info; Exception])
          | Ok data =>
              match py_contains coin_id data with
              | Raise _ => (Ok null_price, after w rq [Info; Exception])
              | Ok false => (Ok null_price, after w rq [Info; Warning])
              | Ok true =>
                  match py_getitem data coin_id with
                  | Raise _ => (Ok null_price, after w rq [Info; Exception])
                  | Ok entry =>
                      match py_contains (PStr "usd") entry with
                      | Raise _ => (Ok null_price, after w rq [Info; Exception])
                      | Ok false => (Ok null_price, after w rq [Info; Warning])
                      | Ok true =>
                          match py_getitem entry (PStr "usd") with
                          | Raise _ => (Ok null_price, after w rq [Info; Exception])
                          | Ok usd => (Ok (PDict [("price", usd)]), after w rq [Info])
                          end
                      end
                  end
              end
          end
        else (Ok null_price, after w rq [Info; Error])
    end).
  { intros w. unfold CoinGecko.get_coin_price. run_handler.
    change (mk_request _ PNone PNone) with rq.
    destruct (upstream rq) as [r | e]; [| same_world].
    destruct (status r =? 200); [| same_world].
    destruct (json r) as [data | e]; [| same_world].
    destruct (py_contains coin_id data) as [[|] | e]; [| same_world | same_world].
    destruct (py_getitem data coin_id) as [entry | e]; [| same_world].
    destruct (py_contains (PStr "usd") entry) as [[|] | e]; [| same_world | same_world].
    destruct (py_getitem entry (PStr "usd")) as [usd | e]; same_world. }
  assert (fallback : forall call, In call [Warning; Error; Exception] ->
    null_price = null_price /\
    exists call', [call] = [call'] /\ In call' [Warning; Error; Exception]).
  { intros call Hc. split; [reflexivity | exists call; auto]. }
  destruct (upstream rq) as [r | e] eqn:Hu.
  2: { exists null_price, [Exception]. split; [exact step | right; apply fallback; cbn; auto]. }
  destruct (status r =? 200) eqn:Hs.
  2: { exists null_price, [Error]. split; [exact step | right; apply fallback; cbn; auto]. }
  destruct (json r) as [data | e] eqn:Hj.
  2: { exists null_price, [Exception]. split; [exact step | right; apply fallback; cbn; auto]. }
  destruct (py_contains coin_id data) as [[|] | e] eqn:Hc.
  3: { exists null_price, [Exception]. split; [exact step | right; apply fallback; cbn; auto]. }
  2: { exists null_price, [Warning]. split; [exact step | right; apply fallback; cbn; auto]. }
  destruct (py_getitem data coin_id) as [entry | e] eqn:Hg.
  2: { exists null_price, [Exception]. split; [exact step | right; apply fallback; cbn; auto]. }
  destruct (py_contains (PStr "usd") entry) as [[|] | e] eqn:Hc'.
  3: { exists null_price, [Exception]. split; [exact step | right; apply fallback; cbn; auto]. }
  2: { exists null_price, [Warning]. split; [exact step | right; apply fallback; cbn; auto]. }
  destruct (py_getitem entry (PStr "usd")) as [usd | e] eqn:Hg'.
  2: { exists null_price, [Exception]. split; [exact step | right; apply fallback; cbn; auto]. }
  exists (PDict [("price", usd)]), []. split; [exact step |].
  left. split; [reflexivity |].
  exists r, data, entry, usd. apply Z.eqb_eq in Hs. auto 10.
Qed.

(** The mention search in every world at once. *)
Lemma search_twitter_mentions_run (keywords : pyvalue) :
  exists calls,
    (length calls <= 1)%nat /\
    forall w, MultiMCP.search_twitter_mentions upstream ELFA_API_KEY keywords w =
              (Ok (mentions_of (upstream (mentions_request ELFA_API_KEY keywords))),
               after w (mentions_request ELFA_API_KEY keywords) (Info :: calls)).
Proof.
  unfold mentions_of.
  destruct (upstream (mentions_request ELFA_API_KEY keywords)) as [r | e] eqn:Hu.
  2: { exists [Exception]. split; [cbn; lia |]. intros w.
       rewrite search_twitter_mentions_reply. cbv zeta. now rewrite Hu. }
  destruct (status r =? 200) eqn:Hs.
  2: { exists [Error]. split; [cbn; lia |]. intros w.
       rewrite search_twitter_mentions_reply. cbv zeta. now rewrite Hu, Hs. }
  destruct (json r) as [data | e] eqn:Hj.
  - exists []. split; [cbn; lia |]. intros w.
    rewrite search_twitter_mentions_reply. cbv zeta. now rewrite Hu, Hs, Hj.
  - exists [Exception]. split; [cbn; lia |]. intros w.
    rewrite search_twitter_mentions_reply. cbv zeta. now rewrite Hu, Hs, Hj.
Qed.

End Frames.

Section MoreProperties.
Context {HF : HostFloat}.

(** X1: whatever [coin_id] is bound to and whatever the HTTP client does,
    [get_coin_price] raises nothing, sends exactly one request and logs
    [info] first; then either it logs nothing more and returns
    [{"price": usd}] for the [usd] it read at [data[coin_id]["usd"]] in the
    JSON body of an HTTP 200 answer, or it returns [{"price": None}] and
    logs exactly one more record, a [warning], an [error] or an
    [exception]: no fallback goes unlogged. *)
Theorem price_fetcher_answers_and_logs_every_fallback :
  forall (upstream : requester) (coin_id : pyvalue) (w : world),
  exists payload calls,
    CoinGecko.get_coin_price upstream coin_id w =
      (Ok payload, after w (price_request coin_id) (Info :: calls)) /\
    MultiMCP.get_coin_price upstream coin_id w =
      (Ok payload, after w (price_request coin_id) (Info :: calls)) /\
    ((calls = [] /\
      exists r data entry usd,
        upstream (price_request coin_id) = Ok r /\ status r = 200 /\
        json r = Ok data /\ py_getitem data coin_id = Ok entry /\
        py_getitem entry (PStr "usd") = Ok usd /\
        payload = PDict [("price", usd)]) \/
     (payload = null_price /\
      exists call, calls = [call] /\ In call [Warning; Error; Exception])).
Proof.
  intros upstream coin_id w.
  destruct (get_coin_price_run upstream coin_id) as (payload & calls & Hrun & Hkind).
  exists payload, calls. split; [apply Hrun | split; [apply Hrun | exact Hkind]].
Qed.

(** X2: for a [coin_id] that is a string, the price [get_coin_price]
    returns is the USD quote of the reply when the reply is an HTTP 200
    answer whose body is a JSON object holding, under [coin_id], a JSON
    object with a [usd] field; in every other case - a fault, any other
    status (201 and 204 too), a body that is not JSON, a body or an entry
    that is not an object, a missing entry or field - it is [None]. *)
Theorem price_is_the_quoted_usd_or_none :
  forall (upstream : requester) (coin_id : string) (w : world),
    let price :=
      match quoted_usd coin_id (upstream (price_request (PStr coin_id))) with
      | Some usd => usd
      | None => PNone
      end in
    fst (CoinGecko.get_coin_price upstream (PStr coin_id) w) = Ok (PDict [("price", price)]) /\
    fst (MultiMCP.get_coin_price upstream (PStr coin_id) w) = Ok (PDict [("price", price)]).
Proof.
  intros upstream coin_id w price.
  assert (H : fst (CoinGecko.get_coin_price upstream (PStr coin_id) w) =
              Ok (PDict [("price", price)])).
  { subst price. unfold quoted_usd, CoinGecko.get_coin_price. run_handler.
    change (mk_request _ PNone PNone) with (price_request (PStr coin_id)).
    destruct (upstream (price_request (PStr coin_id))) as [r | e]; [| reflexivity].
    destruct (status r =? 200); [| reflexivity].
    destruct (json r) as [data | e]; [| reflexivity].
    destruct data as [| b | n | f | s | l | body];
      cbn [py_contains py_getitem hashable as_index]; try reflexivity.
    - destruct (str_contains coin_id s); reflexivity.
    - destruct (existsb _ l); reflexivity.
    - destruct (dict_get coin_id body) as [entry |]; [| reflexivity].
      destruct entry as [| b | n | f | s | l | fields];
        cbn [py_contains py_getitem hashable as_index]; try reflexivity.
      + destruct (str_contains "usd" s); reflexivity.
      + destruct (existsb _ l); reflexivity.
      + destruct (dict_get "usd" fields); reflexivity. }
  split; exact H.
Qed.

(** X3: [call_tool] does not check that [coin_id] is a string.  A value of
    another type that passes the truth test goes to the fetcher, and
    against a JSON object body it never finds a price: the answer is
    [{'price': None}], also when the body has an entry under the value's
    string form. *)
Theorem non_string_coin_id_finds_no_price :
  forall (upstream : requester) (ELFA_API_KEY : string) (coin_id : pyvalue)
         (body : list (string * pyvalue)) (w : world),
    is_str coin_id = false ->
    upstream (price_request coin_id) = Ok (mk_response 200 (Ok (PDict body))) ->
    fst (CoinGecko.get_coin_price upstream coin_id w) = Ok null_price /\
    fst (CoinGecko.call_tool upstream "get_coin_price" [("coin_id", coin_id)] w) =
      (if py_truthy coin_id then Ok (text_content "{'price': None}")
       else Raise (ValueError "coin_id is required")) /\
    fst (MultiMCP.call_tool upstream ELFA_API_KEY "get_coin_price" [("coin_id", coin_id)] w) =
      (if py_truthy coin_id then Ok (text_content "{'price': None}")
       else Raise (ValueError "coin_id is required")).
Proof.
  intros upstream key coin_id body w Hstr H.
  assert (Hrun : exists w', CoinGecko.get_coin_price upstream coin_id w = (Ok null_price, w')).
  { unfold CoinGecko.get_coin_price. run_handler.
    change (mk_request _ PNone PNone) with (price_request coin_id).
    rewrite H. cbn [status json Z.eqb Pos.eqb].
    destruct coin_id; try discriminate Hstr;
      cbn [py_contains hashable]; eexists; reflexivity. }
  destruct Hrun as [w' Hrun].
  change (MultiMCP.call_tool upstream key "get_coin_price" [("coin_id", coin_id)] w)
    with (CoinGecko.call_tool upstream "get_coin_price" [("coin_id", coin_id)] w).
  rewrite coingecko_call_get_coin_price.
  change (arguments_get "coin_id" [("coin_id", coin_id)]) with coin_id.
  rewrite Hrun. destruct (py_truthy coin_id); repeat split; reflexivity.
Qed.

(** X4: the text [call_tool] answers for [get_coin_price] has one shape on
    both servers, whatever the upstream did: [{'price': ] followed by the
    [repr] of one value and [}] - the string form of a Python [dict], with
    single quotes around the key. *)
Theorem price_text_has_one_shape :
  forall (upstream : requester) (ELFA_API_KEY : string)
         (arguments : list (string * pyvalue)) (w : world),
  exists price,
    fst (CoinGecko.call_tool upstream "get_coin_price" arguments w) =
      (if py_truthy (arguments_get "coin_id" arguments)
       then Ok (text_content ("{'price': " ++ py_repr price ++ "}"))
       else Raise (ValueError "coin_id is required")) /\
    fst (MultiMCP.call_tool upstream ELFA_API_KEY "get_coin_price" arguments w) =
      (if py_truthy (arguments_get "coin_id" arguments)
       then Ok (text_content ("{'price': " ++ py_repr price ++ "}"))
       else Raise (ValueError "coin_id is required")).
Proof.
  intros upstream key arguments w.
  change (MultiMCP.call_tool upstream key "get_coin_price" arguments w)
    with (CoinGecko.call_tool upstream "get_coin_price" arguments w).
  rewrite coingecko_call_get_coin_price.
  destruct (get_coin_price_run upstream (arguments_get "coin_id" arguments))
    as (payload & calls & Hrun & Hkind).
  rewrite Hrun.
  destruct Hkind as [(_ & r & data & entry & usd & _ & _ & _ & _ & _ & ->) | [-> _]].
  - exists usd. destruct (py_truthy _); split; reflexivity.
  - exists PNone. destruct (py_truthy _); split; reflexivity.
Qed.

(** X5: on an HTTP 200 answer, for keywords that pass the truth test, the
    text [call_tool] answers for [search_twitter_mentions] is the string
    form of the JSON body whatever the type of that body - an object, a
    string, [null] - with no check that it is an array; and it is [[]] when
    the body is not JSON. *)
Theorem mentions_text_is_the_body_whatever_its_type :
  forall (upstream : requester) (ELFA_API_KEY : string) (keywords : pyvalue)
         (r : response) (w : world),
    py_truthy keywords = true ->
    upstream (mentions_request ELFA_API_KEY keywords) = Ok r ->
    status r = 200 ->
    fst (MultiMCP.call_tool upstream ELFA_API_KEY "search_twitter_mentions"
           [("keywords", keywords)] w) =
      Ok (text_content (match json r with
                        | Ok data => py_str data
                        | Raise _ => "[]"
                        end)).
Proof.
  intros upstream key keywords r w Ht Hu Hs.
  rewrite multimcp_call_search_twitter_mentions.
  change (arguments_get "keywords" [("keywords", keywords)]) with keywords.
  rewrite Ht.
  destruct (search_twitter_mentions_run upstream key keywords) as (calls & _ & Hrun).
  rewrite Hrun. unfold mentions_of. rewrite Hu.
  apply Z.eqb_eq in Hs. rewrite Hs.
  destruct (json r); reflexivity.
Qed.

(** X6: a call of [call_tool] only adds to what happened before: on either
    server, for every name and arguments, the outcome, the requests sent
    (at most one) and the logger calls made (at most two) are the same in
    every world, and they come after the requests and logger calls already
    there, which are kept. *)
Theorem call_tool_only_appends :
  forall (upstream : requester) (ELFA_API_KEY : string) (name : string)
         (arguments : list (string * pyvalue)),
    (exists outcome sent calls,
       (length sent <= 1)%nat /\ (length calls <= 2)%nat /\
       forall w, CoinGecko.call_tool upstream name arguments w =
                 (outcome, mk_world (requests w ++ sent) (logged w ++ calls))) /\
    (exists outcome sent calls,
       (length sent <= 1)%nat /\ (length calls <= 2)%nat /\
       forall w, MultiMCP.call_tool upstream ELFA_API_KEY name arguments w =
                 (outcome, mk_world (requests w ++ sent) (logged w ++ calls))).
Proof.
  intros upstream key name arguments.
  assert (Hprice : exists outcome sent calls,
       (length sent <= 1)%nat /\ (length calls <= 2)%nat /\
       forall w, CoinGecko.call_tool upstream "get_coin_price" arguments w =
                 (outcome, mk_world (requests w ++ sent) (logged w ++ calls))).
  { destruct (get_coin_price_run upstream (arguments_get "coin_id" arguments))
      as (payload & calls & Hrun & Hkind).
    destruct (py_truthy (arguments_get "coin_id" arguments)) eqn:Ht.
    - exists (Ok (text_content (py_str payload))),
             [price_request (arguments_get "coin_id" arguments)], (Info :: calls).
      split; [cbn; lia |]. split.
      + destruct Hkind as [[-> _] | (_ & call & -> & _)]; cbn; lia.
      + intros w. rewrite coingecko_call_get_coin_price, Ht, Hrun. reflexivity.
    - exists (Raise (ValueError "coin_id is required")), [], [].
      split; [cbn; lia |]. split; [cbn; lia |].
      intros w. rewrite coingecko_call_get_coin_price, Ht, world_unchanged. reflexivity. }
  assert (Hother : forall outcome (run : M pyvalue),
       (forall w, run w = (outcome, w)) ->
       exists outcome sent calls,
         (length sent <= 1)%nat /\ (length calls <= 2)%nat /\
         forall w, run w = (outcome, mk_world (requests w ++ sent) (logged w ++ calls))).
  { intros outcome run Hrun. exists outcome, [], [].
    split; [cbn; lia |]. split; [cbn; lia |].
    intros w. now rewrite world_unchanged. }
  destruct (String.eqb_spec name "get_coin_price") as [-> | Hn].
  { split; exact Hprice. }
  split.
  { apply (Hother (Raise (ValueError ("Unknown tool: " ++ name)))).
    intros w. now apply coingecko_call_other. }
  destruct (String.eqb_spec name "search_twitter_mentions") as [-> | Hm].
  2: { apply (Hother (Raise (ValueError ("Unknown tool: " ++ name)))).
       intros w. now apply multimcp_call_other. }
  destruct (search_twitter_mentions_run upstream key (arguments_get "keywords" arguments))
    as (calls & Hlen & Hrun).
  destruct (py_truthy (arguments_get "keywords" arguments)) eqn:Ht.
  - exists (Ok (text_content (py_str
              (mentions_of (upstream (mentions_request key
                                        (arguments_get "keywords" arguments))))))),
           [mentions_request key (arguments_get "keywords" arguments)], (Info :: calls).
    split; [cbn; lia |]. split; [cbn; lia |].
    intros w. rewrite multimcp_call_search_twitter_mentions, Ht, Hrun. reflexivity.
  - apply (Hother (Raise (ValueError "keywords is required"))).
    intros w. now rewrite multimcp_call_search_twitter_mentions, Ht.
Qed.

(** X7: the multi-tool server extends the single-tool server: for every
    name other than [search_twitter_mentions] the two [call_tool]s do the
    same - the same outcome, the same requests, the same logger calls - and
    the single-tool catalog is the head of the multi-tool catalog; the name
    [search_twitter_mentions] itself is unknown to the single-tool server. *)
Theorem multi_tool_server_extends_single_tool_server :
  forall (upstream : requester) (ELFA_API_KEY : string) (name : string)
         (arguments : list (string * pyvalue)) (w : world),
    name <> "search_twitter_mentions" ->
    MultiMCP.call_tool upstream ELFA_API_KEY name arguments w =
      CoinGecko.call_tool upstream name arguments w /\
    catalog (coingecko_server upstream) =
      firstn 1 (catalog (multimcp_server upstream ELFA_API_KEY)) /\
    CoinGecko.call_tool upstream "search_twitter_mentions" arguments w =
      (Raise (ValueError "Unknown tool: search_twitter_mentions"), w).
Proof.
  intros upstream key name arguments w Hm.
  split; [| split; reflexivity].
  destruct (String.eqb_spec name "get_coin_price") as [-> | Hn]; [reflexivity |].
  rewrite multimcp_call_other, coingecko_call_other by assumption. reflexivity.
Qed.

(** X8: on either server [call_tool] raises [ValueError("Unknown tool:
    <name>")] exactly for the names its [list_tools] does not list: a listed
    name is never answered with that error, whatever the arguments and the
    upstream. *)
Theorem unknown_tool_exactly_when_unlisted :
  forall (upstream : requester) (ELFA_API_KEY : string) (s : Server) (name : string)
         (arguments : list (string * pyvalue)) (w : world),
    In s (servers upstream ELFA_API_KEY) ->
    (fst (call_tool s name arguments w) = Raise (ValueError ("Unknown tool: " ++ name))
     <-> ~ registered s name).
Proof.
  intros upstream key s name arguments w Hs.
  assert (Hprice : fst (CoinGecko.call_tool upstream "get_coin_price" arguments w) <>
                   Raise (ValueError ("Unknown tool: " ++ "get_coin_price"))).
  { rewrite coingecko_call_get_coin_price.
    destruct (py_truthy _); [| discriminate].
    destruct (get_coin_price_run upstream (arguments_get "coin_id" arguments))
      as (payload & calls & Hrun & _).
    rewrite Hrun. discriminate. }
  assert (Hsearch : fst (MultiMCP.call_tool upstream key "search_twitter_mentions" arguments w) <>
                    Raise (ValueError ("Unknown tool: " ++ "search_twitter_mentions"))).
  { rewrite multimcp_call_search_twitter_mentions.
    destruct (py_truthy _); [| discriminate].
    destruct (search_twitter_mentions_run upstream key (arguments_get "keywords" arguments))
      as (calls & _ & Hrun).
    rewrite Hrun. discriminate. }
  destruct Hs as [<- | [<- | []]]; unfold registered; cbn [call_tool coingecko_server multimcp_server].
  - split.
    + intros Heq [Hr | []]. cbn in Hr. injection Hr as <-. exact (Hprice Heq).
    + intros Hr. rewrite coingecko_call_other; [reflexivity |].
      intros ->. apply Hr. left. reflexivity.
  - split.
    + intros Heq [Hr | [Hr | []]]; cbn in Hr; injection Hr as <-.
      * exact (Hprice Heq).
      * exact (Hsearch Heq).
    + intros Hr. rewrite multimcp_call_other; [reflexivity | |];
        intros ->; apply Hr; [left | right; left]; reflexivity.
Qed.

End MoreProperties.

Section StartUp.
Context {HF : HostFloat}.
Import Lifecycle.

(** X9: [run_sse] creates a protocol server only when the instance has
    none: it leaves the instance with the server it had, or with a newly
    constructed one bearing the class's name and handlers, and hands one
    configuration for the given port to the web server.  So a second
    [run_sse] constructs nothing and keeps the server, [main] constructs
    exactly one server, and [initialize] followed by [run_sse] constructs
    exactly one, the one [initialize] returned. *)
Theorem run_sse_creates_a_server_only_when_none_is_set :
  forall (cls : server_class) (self : instance) (port port' : Z) (p : process),
    let out := run_sse cls self port p in
    server (fst out) =
      Some (match server self with
            | Some existing => existing
            | None => mk_protocol_server (constructed p) (class_name cls) (class_handlers cls)
            end) /\
    constructed (snd out) =
      (match server self with
       | Some _ => constructed p
       | None => S (constructed p)
       end) /\
    served (snd out) = (served p ++ [mk_uvicorn_config starlette_app "0.0.0.0" port])%list /\
    server (fst (run_sse cls (fst out) port' (snd out))) = server (fst out) /\
    constructed (snd (run_sse cls (fst out) port' (snd out))) = constructed (snd out) /\
    constructed (snd (main cls port p)) = S (constructed p) /\
    let '(created, self1, p1) := initialize cls self p in
    ident created = constructed p /\
    server (fst (run_sse cls self1 port p1)) = Some created /\
    constructed (snd (run_sse cls self1 port p1)) = S (constructed p).
Proof.
  intros cls self port port' p out. subst out.
  unfold main, run_sse, initialize, _create_server, __init__.
  destruct self as [[existing |]]; cbn; repeat split; reflexivity.
Qed.

End StartUp.

Section MoreRuns.
#[local] Existing Instance IntegralFloat.

(** X3 for [coin_id] bound to the number 1, against a body with an entry
    under the string [1]. *)
Lemma non_string_coin_id_finds_no_price_witness :
  let body := [("1", PDict [("usd", PInt 5)])] in
  let up := answers (Ok (mk_response 200 (Ok (PDict body)))) in
  dict_get "1" body = Some (PDict [("usd", PInt 5)]) /\
  fst (CoinGecko.get_coin_price up (PInt 1) world0) = Ok null_price /\
  fst (CoinGecko.call_tool up "get_coin_price" [("coin_id", PInt 1)] world0) =
    Ok (text_content "{'price': None}").
Proof.
  pose proof (non_string_coin_id_finds_no_price
                (answers (Ok (mk_response 200 (Ok (PDict [("1", PDict [("usd", PInt 5)])])))))
                "key" (PInt 1) [("1", PDict [("usd", PInt 5)])] world0
                eq_refl eq_refl) as (H1 & H2 & _).
  split; [reflexivity | split; [exact H1 | exact H2]].
Defined.

(** X5 for an answer whose body is JSON [null]. *)
Lemma mentions_text_is_the_body_whatever_its_type_witness :
  fst (MultiMCP.call_tool (answers (Ok (mk_response 200 (Ok PNone)))) "key"
         "search_twitter_mentions" [("keywords", PList [PStr "btc"])] world0) =
    Ok (text_content "None").
Proof.
  apply (mentions_text_is_the_body_whatever_its_type
           (answers (Ok (mk_response 200 (Ok PNone)))) "key" (PList [PStr "btc"])
           (mk_response 200 (Ok PNone)) world0); reflexivity.
Defined.

(** X7 for [get_coin_price] with a price at hand. *)
Lemma multi_tool_server_extends_single_tool_server_witness :
  let up := answers (Ok (mk_response 200
              (Ok (PDict [("bitcoin", PDict [("usd", PInt 5)])])))) in
  MultiMCP.call_tool up "key" "get_coin_price" [("coin_id", PStr "bitcoin")] world0 =
  CoinGecko.call_tool up "get_coin_price" [("coin_id", PStr "bitcoin")] world0.
Proof.
  apply (multi_tool_server_extends_single_tool_server
           (answers (Ok (mk_response 200
              (Ok (PDict [("bitcoin", PDict [("usd", PInt 5)])])))))
           "key" "get_coin_price" [("coin_id", PStr "bitcoin")] world0).
  discriminate.
Defined.

(** X8 for [search_twitter_mentions] on the single-tool server. *)
Lemma unknown_tool_exactly_when_unlisted_witness :
  let s := coingecko_server (answers (Ok (mk_response 200 (Ok (PList []))))) in
  fst (call_tool s "search_twitter_mentions" [("keywords", PList [PStr "btc"])] world0) =
    Raise (ValueError "Unknown tool: search_twitter_mentions") <->
  ~ registered s "search_twitter_mentions".
Proof.
  apply (unknown_tool_exactly_when_unlisted
           (answers (Ok (mk_response 200 (Ok (PList []))))) "key"
           (coingecko_server (answers (Ok (mk_response 200 (Ok (PList []))))))
           "search_twitter_mentions" [("keywords", PList [PStr "btc"])] world0).
  left. reflexivity.
Defined.

End MoreRuns.
